(** * voice-pipeline-agent: a shallow embedding of [agent/agent.py]

    The agent is a single Python module.  Its own code is small: a tool
    ([saw_sheet]), the frame sampler ([get_video_track],
    [get_latest_image]), the worker hooks ([prewarm], [entrypoint]) and the
    two closures [entrypoint] defines ([before_llm_cb],
    [on_metrics_collected]).  Everything else is the LiveKit SDK.

    The embedding keeps the shape of the Python code:
    - awaits, logging and SDK calls are computations in a state-and-exception
      monad over a [World] that records every interaction in order;
    - Python exceptions carry their class, because [except Exception] tests it;
    - dictionaries that are iterated ([remote_participants],
      [track_publications]) are association lists in insertion order;
      [proc.userdata], which is only indexed, is a [gmap];
    - objects created by the SDK and mutated later (video streams, the usage
      collector) live in a heap inside the [World] and are named by index. *)

From Stdlib Require Import Ascii QArith.
From stdpp Require Import base strings list gmap.



(** ** Python: exceptions and outcomes *)

Module Py.

(** The exception classes that matter to the module.  The first group
    derives from [Exception]; the second derives from [BaseException]
    only (since Python 3.8 this includes [asyncio.CancelledError], which an
    [await] raises when the surrounding task is cancelled). *)
Inductive ExcClass :=
| ValueError | KeyError | RuntimeError | TimeoutError | ConnectionError
| CancelledError | KeyboardInterrupt | SystemExit.

(** [isinstance(e, Exception)] *)
Definition isinstance_Exception (c : ExcClass) : bool :=
  match c with
  | CancelledError | KeyboardInterrupt | SystemExit => false
  | _ => true
  end.

(** An exception object: its class and [str(e)]. *)
Record PyExc := { exc_class : ExcClass; exc_str : string }.

(** How a call ends: it returns a value or an exception leaves it. *)
Inductive Outcome (A : Type) :=
| Ret (a : A)
| Raise (e : PyExc).
Arguments Ret {A} a.
Arguments Raise {A} e.

(** State and exceptions: a computation takes the state and gives an
    outcome and the state it leaves, also when it raises. *)
Definition M (S A : Type) : Type := S -> Outcome A * S.

Definition ret {S A} (a : A) : M S A := fun s => (Ret a, s).
Definition raise {S A} (e : PyExc) : M S A := fun s => (Raise e, s).
Definition bind {S A B} (m : M S A) (k : A -> M S B) : M S B :=
  fun s => match m s with
           | (Ret a, s') => k a s'
           | (Raise e, s') => (Raise e, s')
           end.
Definition get {S} : M S S := fun s => (Ret s, s).
Definition modify {S} (f : S -> S) : M S unit := fun s => (Ret tt, f s).

(** A computation on the second component of a pair of states; the first
    component holds the local variables of the running function. *)
Definition lift {L S A} (m : M S A) : M (L * S) A :=
  fun ls => match m ls.2 with (o, s') => (o, (ls.1, s')) end.

(** [try: body / except Exception as e: handler e / finally: final].
    The handler runs only for exceptions whose class derives from
    [Exception]; the [finally] block runs on every path, and an exception
    it raises replaces the pending result. *)
Definition try_except_Exception_finally {S A}
    (body : M S A) (handler : PyExc -> M S A) (final : M S unit) : M S A :=
  fun s =>
    let '(o1, s1) := body s in
    let '(o2, s2) :=
      match o1 with
      | Ret a => (Ret a, s1)
      | Raise e =>
          if isinstance_Exception (exc_class e) then handler e s1
          else (Raise e, s1)
      end in
    match final s2 with
    | (Ret _, s3) => (o2, s3)
    | (Raise e', s3) => (Raise e', s3)
    end.

End Py.
Import Py.

Declare Scope py_scope.
Delimit Scope py_scope with py.
Notation "x <- m ;; k" := (bind m (fun x => k))
  (at level 100, m at next level, right associativity) : py_scope.
Notation "m ;; k" := (bind m (fun _ => k))
  (at level 100, right associativity) : py_scope.
Open Scope py_scope.

(** The line feed of an f-string's [\n]. *)
Definition nl : string := String "010"%char EmptyString.

(** ** The SDK's data, as the module sees it *)

Module Rtc.

(** A decoded frame ([rtc.VideoFrame]).  The class defines neither
    [__bool__] nor [__len__], so every frame object is truthy. *)
Record VideoFrame := { width : nat; height : nat; data : list nat }.

(** What the async iterator of a [VideoStream] yields. *)
Record VideoFrameEvent := { frame : VideoFrame; timestamp_us : nat }.

(** One [__anext__] of a stream: an event, or an exception (a decode
    error, a cancellation).  The end of the script is the end of the
    stream ([StopAsyncIteration]). *)
Inductive NextOutcome :=
| Yield (ev : VideoFrameEvent)
| Fail (e : PyExc).

(** What the room delivers for a track when [VideoStream(track)] is
    built: the constructor raises, or the stream exists and will go
    through the script. *)
Inductive Feed :=
| FeedError (e : PyExc)
| FeedFrames (script : list NextOutcome).

(** The classes of track objects. *)
Inductive TrackClass :=
| RemoteAudioTrack | RemoteVideoTrack | LocalAudioTrack | LocalVideoTrack.

(** A track object.  [feed] and [close_raises] say what the room will do
    with a stream of this track: what building and iterating it gives, and
    whether [await stream.aclose()] raises (an error of the transport, a
    cancellation that arrives during the await) or returns. *)
Record Track := {
  sid : string;
  class : TrackClass;
  feed : Feed;
  close_raises : option PyExc
}.

(** [isinstance(track, rtc.RemoteVideoTrack)] *)
Definition isinstance_RemoteVideoTrack (t : Track) : bool :=
  match class t with RemoteVideoTrack => true | _ => false end.

(** A publication; [track] is [None] until the track is subscribed. *)
Record RemoteTrackPublication := { track : option Track }.

Record RemoteParticipant := {
  identity : string;
  track_publications : list (string * RemoteTrackPublication)
}.

Record Room := {
  name : string;
  remote_participants : list (string * RemoteParticipant)
}.

(** A [VideoStream] object on the heap.  [closed] says that an
    [aclose()] of the stream has returned. *)
Record StreamState := {
  of_track : string;
  pending : list NextOutcome;
  aclose_raises : option PyExc;
  closed : bool
}.

End Rtc.

Module Llm.

Inductive ChatRole := system | user | assistant | tool.

Record ChatImage := { image : Rtc.VideoFrame }.

Inductive ContentPart :=
| PartText (s : string)
| PartImage (img : ChatImage).

(** [content: str | list[str | ChatImage] | None] *)
Inductive Content :=
| ContentNone
| ContentText (s : string)
| ContentList (parts : list ContentPart).

Record ChatMessage := { role : ChatRole; content : Content }.

Record ChatContext := { messages : list ChatMessage }.

(** [ChatMessage.create(text=..., role=...)] *)
Definition create (text : string) (r : ChatRole) : ChatMessage :=
  {| role := r; content := ContentText text |}.

(** [ChatContext.append(role=..., text=...)]: appends to [messages] and
    returns the context itself. *)
Definition append (self : ChatContext) (r : ChatRole) (text : string)
  : ChatContext :=
  {| messages := messages self ++ [create text r] |}.

(** [chat_ctx.messages.append(m)] *)
Definition messages_append (self : ChatContext) (m : ChatMessage)
  : ChatContext :=
  {| messages := messages self ++ [m] |}.

(** The tool descriptors a [FunctionContext] exposes to the model. *)
Record TypeInfo := { arg_name : string; arg_type : string; description : string }.
Record ToolDescriptor := {
  tool_name : string;
  tool_description : string;
  tool_args : list TypeInfo
}.

End Llm.

Module Metrics.

(** Modelled from the spec: a UsageEvent, the "immutable record of one
    model/speech invocation's cost/latency metrics"; the class
    ([metrics.AgentMetrics]) belongs to the agents library. *)
Record AgentMetrics := { label : string; cost : nat; latency : nat }.

(** Modelled from the spec: the AggregateUsage a collector reports. *)
Record AggregateUsage := {
  events_collected : nat;
  total_cost : nat;
  total_latency : nat
}.

(** Modelled from the spec: [metrics.UsageCollector()] starts empty. *)
Definition empty_usage : AggregateUsage :=
  {| events_collected := 0; total_cost := 0; total_latency := 0 |}.

(** Modelled from the spec: [UsageCollector.collect(event)], of which the
    spec says "accumulation is additive"; the class belongs to the agents
    library. *)
Definition collect (u : AggregateUsage) (m : AgentMetrics) : AggregateUsage :=
  {| events_collected := S (events_collected u);
     total_cost := total_cost u + cost m;
     total_latency := total_latency u + latency m |}.

End Metrics.

(** ** The world the module runs in *)

Inductive LogLevel := DEBUG | INFO | ERROR.

Inductive AutoSubscribe := SUBSCRIBE_ALL | SUBSCRIBE_NONE | AUDIO_ONLY | VIDEO_ONLY.

(** Everything the module does to its surroundings, in the order it does
    it. *)
Inductive Event :=
| EvLog (lvl : LogLevel) (msg : string)          (* logger.debug/info/error *)
| EvVideoStream (track_sid : string)              (* rtc.VideoStream(track) *)
| EvNext (stream : nat)                           (* one step of async for *)
| EvAclose (stream : nat)                         (* await stream.aclose() *)
| EvConnect (auto_subscribe : AutoSubscribe)      (* await ctx.connect(...) *)
| EvWaitForParticipant                            (* await ctx.wait_for_participant() *)
| EvStart (room_name participant : string)        (* agent.start(room, participant) *)
| EvSay (text : string) (allow_interruptions : bool)  (* await agent.say(...) *)
| EvLogMetrics (m : Metrics.AgentMetrics).        (* metrics.log_metrics(m) *)

Record World := {
  room : Rtc.Room;                          (* the state of [ctx.room] now *)
  events : list Event;                      (* what has happened so far *)
  streams : list Rtc.StreamState;           (* the VideoStream objects made *)
  collectors : list Metrics.AggregateUsage; (* the UsageCollector objects made *)
  calls : list string                       (* ghost: functions entered *)
}.

Definition with_events (f : list Event -> list Event) (w : World) : World :=
  {| room := room w; events := f (events w); streams := streams w;
     collectors := collectors w; calls := calls w |}.

Definition with_streams (f : list Rtc.StreamState -> list Rtc.StreamState)
    (w : World) : World :=
  {| room := room w; events := events w; streams := f (streams w);
     collectors := collectors w; calls := calls w |}.

Definition with_collectors
    (f : list Metrics.AggregateUsage -> list Metrics.AggregateUsage)
    (w : World) : World :=
  {| room := room w; events := events w; streams := streams w;
     collectors := f (collectors w); calls := calls w |}.

Definition with_calls (f : list string -> list string) (w : World) : World :=
  {| room := room w; events := events w; streams := streams w;
     collectors := collectors w; calls := f (calls w) |}.

(** Computations of the module. *)
Abbreviation IO := (M World).

Definition emit (e : Event) : IO unit := modify (with_events (fun es => es ++ [e])).

(** Ghost: records that the function [fn] has been entered. *)
Definition enter (fn : string) : IO unit := modify (with_calls (fun cs => cs ++ [fn])).

Module logger.
Definition debug (msg : string) : IO unit := emit (EvLog DEBUG msg).
Definition info (msg : string) : IO unit := emit (EvLog INFO msg).
Definition error (msg : string) : IO unit := emit (EvLog ERROR msg).
End logger.

(** The SDK calls on video streams. *)
Module VideoStream.

(** [rtc.VideoStream(track)]: a new stream object, or the constructor's
    exception. *)
Definition new (t : Rtc.Track) : IO nat :=
  emit (EvVideoStream (Rtc.sid t)) ;;
  match Rtc.feed t with
  | Rtc.FeedError e => raise e
  | Rtc.FeedFrames script =>
      w <- get ;;
      modify (with_streams (fun ss =>
        ss ++ [{| Rtc.of_track := Rtc.sid t; Rtc.pending := script;
                  Rtc.aclose_raises := Rtc.close_raises t;
                  Rtc.closed := false |}])) ;;
      ret (length (streams w))
  end.

Definition advance (st : Rtc.StreamState) : Rtc.StreamState :=
  {| Rtc.of_track := Rtc.of_track st; Rtc.pending := tail (Rtc.pending st);
     Rtc.aclose_raises := Rtc.aclose_raises st;
     Rtc.closed := Rtc.closed st |}.

Definition close (st : Rtc.StreamState) : Rtc.StreamState :=
  {| Rtc.of_track := Rtc.of_track st; Rtc.pending := Rtc.pending st;
     Rtc.aclose_raises := Rtc.aclose_raises st;
     Rtc.closed := true |}.

(** One [__anext__]: [None] stands for [StopAsyncIteration]. *)
Definition anext (s : nat) : IO (option Rtc.VideoFrameEvent) :=
  emit (EvNext s) ;;
  w <- get ;;
  match streams w !! s with
  | None => raise {| exc_class := RuntimeError; exc_str := "no such stream" |}
  | Some st =>
      match Rtc.pending st with
      | [] => ret None
      | Rtc.Yield ev :: _ =>
          modify (with_streams (alter advance s)) ;; ret (Some ev)
      | Rtc.Fail e :: _ =>
          modify (with_streams (alter advance s)) ;; raise e
      end
  end.

(** [await stream.aclose()]: the await returns, and the stream is closed,
    or it raises and the stream is left as it was. *)
Definition aclose (s : nat) : IO unit :=
  emit (EvAclose s) ;;
  w <- get ;;
  match streams w !! s with
  | None => raise {| exc_class := RuntimeError; exc_str := "no such stream" |}
  | Some st =>
      match Rtc.aclose_raises st with
      | Some e => raise e
      | None => modify (with_streams (alter close s))
      end
  end.

End VideoStream.

(** ** The module [agent.py] *)

(** *** [class AssistantFnc(llm.FunctionContext)] *)

Module AssistantFnc.

(** [async def saw_sheet(self, sheet_name, sheet_url)] *)
Definition saw_sheet (sheet_name sheet_url : string) : IO string :=
  logger.info ("################" +:+ nl +:+ nl +:+ "Saw a sheet " +:+ sheet_name
               +:+ " at " +:+ sheet_url) ;;
  ret "I just saw a Google Sheet".

(** What [@llm.ai_callable()] registers for [saw_sheet]: the docstring and
    the [Annotated] argument descriptions. *)
Definition saw_sheet_descriptor : Llm.ToolDescriptor :=
  {| Llm.tool_name := "saw_sheet";
     Llm.tool_description := "Called when the agent sees a Google Sheet";
     Llm.tool_args :=
       [ {| Llm.arg_name := "sheet_name"; Llm.arg_type := "str";
            Llm.description := "The name of the Google Sheet" |};
         {| Llm.arg_name := "sheet_url"; Llm.arg_type := "str";
            Llm.description := "The URL of the Google Sheet, get from browser" |} ] |}.

End AssistantFnc.

(** [fnc_ctx = AssistantFnc()] *)
Definition fnc_ctx : list Llm.ToolDescriptor := [AssistantFnc.saw_sheet_descriptor].

(** *** [get_video_track] *)

(** The inner loop of [get_video_track], over the publications of one
    participant; [Some t] is the [return] inside the loop, [None] is the
    loop running to its end.  In [track_publication.track and isinstance(...)]
    a track object is truthy (the class defines neither [__bool__] nor
    [__len__]), so the left operand tests for [None]. *)
Fixpoint for_track_publications (participant_id : string)
    (pubs : list (string * Rtc.RemoteTrackPublication)) : IO (option Rtc.Track) :=
  match pubs with
  | [] => ret None
  | (track_id, track_publication) :: rest =>
      match Rtc.track track_publication with
      | Some t =>
          if Rtc.isinstance_RemoteVideoTrack t then
            logger.info ("Found video track " +:+ Rtc.sid t +:+ " "
                         +:+ "from participant " +:+ participant_id) ;;
            ret (Some t)
          else for_track_publications participant_id rest
      | None => for_track_publications participant_id rest
      end
  end.

(** The outer loop, over the participants. *)
Fixpoint for_remote_participants
    (ps : list (string * Rtc.RemoteParticipant)) : IO (option Rtc.Track) :=
  match ps with
  | [] => ret None
  | (participant_id, participant) :: rest =>
      r <- for_track_publications participant_id (Rtc.track_publications participant) ;;
      match r with
      | Some t => ret (Some t)
      | None => for_remote_participants rest
      end
  end.

Definition NoVideoSource : PyExc :=
  {| exc_class := ValueError; exc_str := "No remote video track found in the room" |}.

(** [async def get_video_track(room)] *)
Definition get_video_track (room : Rtc.Room) : IO Rtc.Track :=
  r <- for_remote_participants (Rtc.remote_participants room) ;;
  match r with
  | Some t => ret t
  | None => raise NoVideoSource
  end.

(** *** [get_latest_image] *)

(** Runs a function body that has a local variable, starting from [init]. *)
Definition with_local {L A} (init : L) (body : M (L * World) A) : IO A :=
  fun w => match body (init, w) with (o, (_, w')) => (o, w') end.

Definition set_local {L} (v : L) : M (L * World) unit := modify (fun lw => (v, lw.2)).
Definition get_local {L} : M (L * World) L := fun lw => (Ret lw.1, lw).

(** [async def get_latest_image(room)].  The local is [video_stream].  The
    body of the [async for] returns in its first iteration, so the loop takes
    at most one step of the stream. *)
Definition get_latest_image (room : Rtc.Room) : IO (option Rtc.VideoFrame) :=
  enter "get_latest_image" ;;
  with_local (None : option nat)
    (try_except_Exception_finally
       (video_track <- lift (get_video_track room) ;;
        video_stream <- lift (VideoStream.new video_track) ;;
        set_local (Some video_stream) ;;
        next <- lift (VideoStream.anext video_stream) ;;
        match next with
        | Some event =>
            lift (logger.debug "Captured latest video frame") ;;
            ret (Some (Rtc.frame event))
        | None => ret None
        end)
       (fun e =>
          lift (logger.error ("Failed to get latest image: " +:+ exc_str e)) ;;
          ret None)
       (video_stream <- get_local ;;
        match video_stream with
        | Some s => lift (VideoStream.aclose s)
        | None => ret tt
        end)).

(** *** The job: [prewarm] and what [entrypoint] is given *)

(** The plugin objects the module builds. *)
Inductive Plugin :=
| silero_VAD
| deepgram_STT
| google_LLM (model : string)
| cartesia_TTS (voice : string)
| turn_detector_EOUModel.

Record JobProcess := { userdata : gmap string Plugin }.

(** [def prewarm(proc)] *)
Definition prewarm (proc : JobProcess) : JobProcess :=
  {| userdata := <["vad" := silero_VAD]> (userdata proc) |}.

(** The calls [entrypoint] makes into the SDK after the participant has
    joined, in the order it makes them: the four plugin constructors, the
    agent's constructor, the collector's constructor, the registration of
    the handler, [agent.start] and [await agent.say].  Each of them can
    raise (a plugin built without its API key raises [ValueError]; an await
    can be cancelled). *)
Inductive SdkCall :=
| call_STT | call_LLM | call_TTS | call_EOUModel | call_VoicePipelineAgent
| call_UsageCollector | call_on | call_start | call_say.

(** A [JobContext]: the process, what its two awaits will give in this
    run, and which of the SDK calls of this run raise.  [ctx.room] is the
    [room] of the [World]. *)
Record JobContext := {
  proc : JobProcess;
  connect_result : Outcome unit;
  wait_for_participant_result : Outcome Rtc.RemoteParticipant;
  sdk_raises : SdkCall -> option PyExc
}.

(** The SDK call [c] returns or raises, as the run has it. *)
Definition sdk (ctx : JobContext) (c : SdkCall) : IO unit :=
  match sdk_raises ctx c with
  | None => ret tt
  | Some e => raise e
  end.

(** A constructor of the SDK: the object [v], unless the call raises. *)
Definition construct {A} (ctx : JobContext) (c : SdkCall) (v : A) : IO A :=
  sdk ctx c ;; ret v.

(** [await ctx.connect(auto_subscribe=...)] *)
Definition connect (ctx : JobContext) (auto_subscribe : AutoSubscribe) : IO unit :=
  emit (EvConnect auto_subscribe) ;;
  fun w => (connect_result ctx, w).

(** [await ctx.wait_for_participant()] *)
Definition wait_for_participant (ctx : JobContext) : IO Rtc.RemoteParticipant :=
  emit EvWaitForParticipant ;;
  fun w => (wait_for_participant_result ctx, w).

(** [d[key]] on a dictionary of plugins; [str(KeyError(key))] is the [repr]
    of the key. *)
Definition getitem (d : gmap string Plugin) (key : string) : IO Plugin :=
  match d !! key with
  | Some v => ret v
  | None => raise {| exc_class := KeyError; exc_str := "'" +:+ key +:+ "'" |}
  end.

(** The [VoicePipelineAgent] object, as far as the module configures it. *)
Module Pipeline.

Record VoicePipelineAgent := {
  vad : Plugin;
  stt : Plugin;
  llm : Plugin;
  tts : Plugin;
  turn_detector : Plugin;
  min_endpointing_delay : Q;
  max_endpointing_delay : Q;
  fnc_ctx : list Llm.ToolDescriptor;
  chat_ctx : Llm.ChatContext;
  before_llm_cb : M (Llm.ChatContext * World) unit;
  handlers : list (string * (Metrics.AgentMetrics -> IO unit))
}.

(** [agent.on(event)(handler)] *)
Definition on (a : VoicePipelineAgent) (event : string)
    (handler : Metrics.AgentMetrics -> IO unit) : VoicePipelineAgent :=
  {| vad := vad a; stt := stt a; llm := llm a; tts := tts a;
     turn_detector := turn_detector a;
     min_endpointing_delay := min_endpointing_delay a;
     max_endpointing_delay := max_endpointing_delay a;
     fnc_ctx := fnc_ctx a; chat_ctx := chat_ctx a;
     before_llm_cb := before_llm_cb a;
     handlers := handlers a ++ [(event, handler)] |}.

(** The event emitter: every handler registered for [event] is called,
    in registration order, with the payload. *)
Fixpoint call_handlers (hs : list (string * (Metrics.AgentMetrics -> IO unit)))
    (event : string) (payload : Metrics.AgentMetrics) : IO unit :=
  match hs with
  | [] => ret tt
  | (ev, h) :: rest =>
      (if String.eqb ev event then h payload else ret tt) ;;
      call_handlers rest event payload
  end.

Definition emit_event (a : VoicePipelineAgent) (event : string)
    (payload : Metrics.AgentMetrics) : IO unit :=
  call_handlers (handlers a) event payload.

(** [agent.start(room, participant)]: the call is made, and returns or
    raises. *)
Definition start (ctx : JobContext) (room : Rtc.Room)
    (participant : Rtc.RemoteParticipant) : IO unit :=
  emit (EvStart (Rtc.name room) (Rtc.identity participant)) ;;
  sdk ctx call_start.

(** [await agent.say(text, allow_interruptions=...)]: the utterance is
    handed to the pipeline, and the await returns or raises. *)
Definition say (ctx : JobContext) (text : string) (allow_interruptions : bool)
  : IO unit :=
  emit (EvSay text allow_interruptions) ;;
  sdk ctx call_say.

End Pipeline.

(** [metrics.UsageCollector()]: a new, empty collector object, unless the
    constructor raises. *)
Definition UsageCollector (ctx : JobContext) : IO nat :=
  sdk ctx call_UsageCollector ;;
  w <- get ;;
  modify (with_collectors (fun cs => cs ++ [Metrics.empty_usage])) ;;
  ret (length (collectors w)).

(** [usage_collector.collect(m)] on the collector object [c]. *)
Definition collect (c : nat) (m : Metrics.AgentMetrics) : IO unit :=
  modify (with_collectors (alter (fun u => Metrics.collect u m) c)).

(** [metrics.log_metrics(m)] *)
Definition log_metrics (m : Metrics.AgentMetrics) : IO unit := emit (EvLogMetrics m).

(** *** [entrypoint] and its closures *)

Definition system_prompt : string :=
  "You are a voice assistant created by LiveKit that can both see and hear. "
  +:+ "You should use short and concise responses, avoiding unpronounceable punctuation. "
  +:+ "Don't make up any information, you can only answer questions about the information you see. "
  +:+ "If the user is not sharing a screen, you should ask them to do so. "
  +:+ "### Tools:"
  +:+ "ALWAYS call the saw_sheet function if you see a Google Sheet you haven't seen before,"
  +:+ "You can get the sheet name and url from the image."
  +:+ "DON'T mention this in your response, just call the tool.".

(** [initial_ctx = llm.ChatContext().append(role="system", text=...)] *)
Definition initial_ctx : Llm.ChatContext :=
  Llm.append {| Llm.messages := [] |} Llm.system system_prompt.

(** The message [before_llm_cb] builds from a frame:
    [ChatMessage(role="user", content=[ChatImage(image=latest_image)])]. *)
Definition image_message (latest_image : Rtc.VideoFrame) : Llm.ChatMessage :=
  let image_content := [Llm.PartImage {| Llm.image := latest_image |}] in
  {| Llm.role := Llm.user; Llm.content := Llm.ContentList image_content |}.

(** [async def before_llm_cb(assistant, chat_ctx)].  [chat_ctx] is passed by
    reference and mutated in place: it is the first component of the state.
    [assistant] is not used by the body.  [ctx.room] is read when the hook
    runs.  [if latest_image:] tests for [None], frames being truthy. *)
Definition before_llm_cb {Agent : Type} (assistant : Agent)
  : M (Llm.ChatContext * World) unit :=
  latest_image <- lift (w <- get ;; get_latest_image (room w)) ;;
  match latest_image with
  | Some image =>
      modify (fun cw => (Llm.messages_append cw.1 (image_message image), cw.2)) ;;
      lift (logger.debug "Added latest frame to conversation context")
  | None => ret tt
  end.

(** [def on_metrics_collected(agent_metrics)], closed over the collector. *)
Definition on_metrics_collected (usage_collector : nat)
    (agent_metrics : Metrics.AgentMetrics) : IO unit :=
  log_metrics agent_metrics ;;
  collect usage_collector agent_metrics.

Definition greeting : string := "Hey, how can I help you today?".

(** What [entrypoint] leaves running when it returns. *)
Record Session := {
  agent : Pipeline.VoicePipelineAgent;
  usage_collector : nat
}.

(** [async def entrypoint(ctx)] *)
Definition entrypoint (ctx : JobContext) : IO Session :=
  w <- get ;;
  logger.info ("connecting to room " +:+ Rtc.name (room w)) ;;
  connect ctx SUBSCRIBE_ALL ;;
  participant <- wait_for_participant ctx ;;
  logger.info ("starting voice assistant for participant "
               +:+ Rtc.identity participant) ;;
  vad <- getitem (userdata (proc ctx)) "vad" ;;
  stt <- construct ctx call_STT deepgram_STT ;;
  llm <- construct ctx call_LLM (google_LLM "gemini-2.0-flash-001") ;;
  tts <- construct ctx call_TTS
           (cartesia_TTS "a38e4e85-e815-43ab-acf1-907c4688dd6c") ;;
  turn_detector <- construct ctx call_EOUModel turn_detector_EOUModel ;;
  agent <- construct ctx call_VoicePipelineAgent
    {| Pipeline.vad := vad;
       Pipeline.stt := stt;
       Pipeline.llm := llm;
       Pipeline.tts := tts;
       Pipeline.turn_detector := turn_detector;
       Pipeline.min_endpointing_delay := 1 # 2;
       Pipeline.max_endpointing_delay := 5 # 1;
       Pipeline.fnc_ctx := fnc_ctx;
       Pipeline.chat_ctx := initial_ctx;
       Pipeline.before_llm_cb := before_llm_cb tt;
       Pipeline.handlers := [] |} ;;
  usage_collector <- UsageCollector ctx ;;
  agent <- construct ctx call_on
             (Pipeline.on agent "metrics_collected"
                (on_metrics_collected usage_collector)) ;;
  w <- get ;;
  Pipeline.start ctx (room w) participant ;;
  Pipeline.say ctx greeting true ;;
  ret {| agent := agent; usage_collector := usage_collector |}.

(** ** Vocabulary of the properties *)

(** The publications of a room in the order [get_video_track] visits them:
    participants in dictionary order, and for each its publications in
    dictionary order, each with the id of its participant. *)
Definition publications (r : Rtc.Room)
  : list (string * Rtc.RemoteTrackPublication) :=
  flat_map (fun pp => map (fun tp => (pp.1, tp.2)) (Rtc.track_publications pp.2))
           (Rtc.remote_participants r).

(** A publication carries a live remote video track: its [track] is present
    and is a [RemoteVideoTrack]. *)
Definition live_video (pub : Rtc.RemoteTrackPublication) : option Rtc.Track :=
  match Rtc.track pub with
  | Some t => if Rtc.isinstance_RemoteVideoTrack t then Some t else None
  | None => None
  end.

(** The first publication with a live remote video track, with its
    participant. *)
Fixpoint first_video (pubs : list (string * Rtc.RemoteTrackPublication))
  : option (string * Rtc.Track) :=
  match pubs with
  | [] => None
  | (pid, pub) :: rest =>
      match live_video pub with
      | Some t => Some (pid, t)
      | None => first_video rest
      end
  end.

(** The log line of [get_video_track] when it finds a track. *)
Definition found_video_track (pid : string) (t : Rtc.Track) : Event :=
  EvLog INFO ("Found video track " +:+ Rtc.sid t +:+ " " +:+ "from participant " +:+ pid).

(** The log line of [get_latest_image] when it catches [e]. *)
Definition failed_to_get (e : PyExc) : Event :=
  EvLog ERROR ("Failed to get latest image: " +:+ exc_str e).

(** The error, if any, that a capture in room [r] meets during track
    lookup, subscription or decoding. *)
Definition capture_error (r : Rtc.Room) : option PyExc :=
  match first_video (publications r) with
  | None => Some NoVideoSource
  | Some (_, t) =>
      match Rtc.feed t with
      | Rtc.FeedError e => Some e
      | Rtc.FeedFrames (Rtc.Fail e :: _) => Some e
      | Rtc.FeedFrames _ => None
      end
  end.

(** The state of a world after [es] happened in it. *)
Definition happened (es : list Event) (w : World) : World :=
  with_events (fun old => old ++ es) w.

(** The state of a world after the stream object [st] was made in it. *)
Definition allocated (st : Rtc.StreamState) (w : World) : World :=
  with_streams (fun old => old ++ [st]) w.

(** The stream object of track [t] after a capture has used it, with
    [rest] of its script not consumed: it is closed exactly when its
    [aclose()] returned. *)
Definition used_stream (t : Rtc.Track) (rest : list Rtc.NextOutcome)
  : Rtc.StreamState :=
  {| Rtc.of_track := Rtc.sid t; Rtc.pending := rest;
     Rtc.aclose_raises := Rtc.close_raises t;
     Rtc.closed := match Rtc.close_raises t with None => true | Some _ => false end |}.

(** The exception, if any, that closing raises in a capture in room [r]:
    that of [aclose()] on the stream of the first live video track, when the
    capture gets to build that stream. *)
Definition close_error (r : Rtc.Room) : option PyExc :=
  match first_video (publications r) with
  | None => None
  | Some (_, t) =>
      match Rtc.feed t with
      | Rtc.FeedError _ => None
      | Rtc.FeedFrames _ => Rtc.close_raises t
      end
  end.

(** One more entry of [get_latest_image]. *)
Definition entered (w : World) : World :=
  with_calls (fun cs => cs ++ ["get_latest_image"]) w.

Definition captured : Event := EvLog DEBUG "Captured latest video frame".

(** The one step a capture takes of a stream with the given script: the
    result that is pending when the [finally] block starts, what was logged
    on the way, and what stays unread. *)
Definition first_step (script : list Rtc.NextOutcome)
  : Outcome (option Rtc.VideoFrame) * list Event * list Rtc.NextOutcome :=
  match script with
  | [] => (Ret None, [], [])
  | Rtc.Yield ev :: rest => (Ret (Some (Rtc.frame ev)), [captured], rest)
  | Rtc.Fail e :: rest =>
      if isinstance_Exception (exc_class e)
      then (Ret None, [failed_to_get e], rest)
      else (Raise e, [], rest)
  end.

(** What a capture in room [r] does, path by path: the result of the call
    and the world it leaves.  [get_latest_image] is shown below to be equal
    to it.  When a stream was built, an exception of its [aclose()] takes
    the place of the pending result. *)
Definition capture_result (r : Rtc.Room) (w : World)
  : Outcome (option Rtc.VideoFrame) * World :=
  match first_video (publications r) with
  | None => (Ret None, happened [failed_to_get NoVideoSource] (entered w))
  | Some (p, t) =>
      let s := length (streams w) in
      let found := [found_video_track p t; EvVideoStream (Rtc.sid t)] in
      match Rtc.feed t with
      | Rtc.FeedError e =>
          if isinstance_Exception (exc_class e)
          then (Ret None, happened (found ++ [failed_to_get e]) (entered w))
          else (Raise e, happened found (entered w))
      | Rtc.FeedFrames script =>
          let '(pending_result, logged, rest) := first_step script in
          (match Rtc.close_raises t with
           | None => pending_result
           | Some e => Raise e
           end,
           happened (found ++ [EvNext s] ++ logged ++ [EvAclose s])
             (allocated (used_stream t rest) (entered w)))
      end
  end.




Definition is_start (e : Event) : bool :=
  match e with EvStart _ _ => true | _ => false end.


(** The pipeline emits [metrics_collected] once for each of [ms], in order. *)
Fixpoint deliver (a : Pipeline.VoicePipelineAgent)
    (ms : list Metrics.AgentMetrics) : IO unit :=
  match ms with
  | [] => ret tt
  | m :: rest => Pipeline.emit_event a "metrics_collected" m ;; deliver a rest
  end.

(** The usage of [ms] added to [u]. *)
Definition usage_plus (u : Metrics.AggregateUsage)
    (ms : list Metrics.AgentMetrics) : Metrics.AggregateUsage :=
  {| Metrics.events_collected := Metrics.events_collected u + length ms;
     Metrics.total_cost := Metrics.total_cost u + sum_list_with Metrics.cost ms;
     Metrics.total_latency :=
       Metrics.total_latency u + sum_list_with Metrics.latency ms |}.

(** ** Concrete rooms and jobs *)

Module Sample.

Definition frame : Rtc.VideoFrame :=
  {| Rtc.width := 2; Rtc.height := 1; Rtc.data := [7; 9] |}.

Definition event : Rtc.VideoFrameEvent :=
  {| Rtc.frame := frame; Rtc.timestamp_us := 40 |}.

Definition cancelled : PyExc :=
  {| exc_class := CancelledError; exc_str := "" |}.

Definition decode_failed : PyExc :=
  {| exc_class := RuntimeError; exc_str := "decode failed" |}.

Definition microphone : Rtc.Track :=
  {| Rtc.sid := "TR_mic"; Rtc.class := Rtc.RemoteAudioTrack;
     Rtc.feed := Rtc.FeedFrames []; Rtc.close_raises := None |}.

Definition screen (f : Rtc.Feed) : Rtc.Track :=
  {| Rtc.sid := "TR_screen"; Rtc.class := Rtc.RemoteVideoTrack; Rtc.feed := f;
     Rtc.close_raises := None |}.

(** One participant publishing a microphone, a publication that is not
    subscribed yet, and a screen share with feed [f]. *)
Definition alice (f : Rtc.Feed) : Rtc.RemoteParticipant :=
  {| Rtc.identity := "alice";
     Rtc.track_publications :=
       [ ("TR_mic", {| Rtc.track := Some microphone |});
         ("TR_cam", {| Rtc.track := None |});
         ("TR_screen", {| Rtc.track := Some (screen f) |}) ] |}.

Definition sharing (f : Rtc.Feed) : Rtc.Room :=
  {| Rtc.name := "demo"; Rtc.remote_participants := [("PA_alice", alice f)] |}.

Definition audio_only : Rtc.Room :=
  {| Rtc.name := "demo";
     Rtc.remote_participants :=
       [("PA_bob", {| Rtc.identity := "bob";
                      Rtc.track_publications :=
                        [("TR_mic", {| Rtc.track := Some microphone |})] |})] |}.

Definition world (r : Rtc.Room) : World :=
  {| room := r; events := []; streams := []; collectors := []; calls := [] |}.

Definition job : JobContext :=
  {| proc := prewarm {| userdata := ∅ |};
     connect_result := Ret tt;
     wait_for_participant_result := Ret (alice (Rtc.FeedFrames []));
     sdk_raises := fun _ => None |}.

Definition llm_call : Metrics.AgentMetrics :=
  {| Metrics.label := "llm"; Metrics.cost := 120; Metrics.latency := 300 |}.

Definition tts_call : Metrics.AgentMetrics :=
  {| Metrics.label := "tts"; Metrics.cost := 31; Metrics.latency := 80 |}.

End Sample.

(** ** Vocabulary of the further properties *)

(** How many of the events [es] satisfy [p]. *)
Definition occurrences (p : Event -> bool) (es : list Event) : nat :=
  length (List.filter p es).



Definition is_error_log (e : Event) : bool :=
  match e with EvLog ERROR _ => true | _ => false end.


(** The frame a capture made in world [w], on its room, returns, if any. *)
Definition captured_frame (w : World) : option Rtc.VideoFrame :=
  match (get_latest_image (room w) w).1 with
  | Ret (Some image) => Some image
  | _ => None
  end.

(** The context after the hook has run once in each of the worlds [ws], in
    order, on the same context object. *)
Fixpoint run_hooks (c : Llm.ChatContext) (ws : list World) : Llm.ChatContext :=
  match ws with
  | [] => c
  | w :: rest => run_hooks (before_llm_cb tt (c, w)).2.1 rest
  end.

(** A room with the given participants. *)
Definition room_of (n : string) (ps : list (string * Rtc.RemoteParticipant))
  : Rtc.Room :=
  {| Rtc.name := n; Rtc.remote_participants := ps |}.

(** The [KeyError] of [userdata["vad"]]. *)
Definition missing_vad : PyExc := {| exc_class := KeyError; exc_str := "'vad'" |}.

(** The session [entrypoint] sets up with the detector [vad] and the
    collector object [collector]. *)
Definition session_of (vad : Plugin) (collector : nat) : Session :=
  {| agent :=
       {| Pipeline.vad := vad;
          Pipeline.stt := deepgram_STT;
          Pipeline.llm := google_LLM "gemini-2.0-flash-001";
          Pipeline.tts := cartesia_TTS "a38e4e85-e815-43ab-acf1-907c4688dd6c";
          Pipeline.turn_detector := turn_detector_EOUModel;
          Pipeline.min_endpointing_delay := 1 # 2;
          Pipeline.max_endpointing_delay := 5 # 1;
          Pipeline.fnc_ctx := fnc_ctx;
          Pipeline.chat_ctx := initial_ctx;
          Pipeline.before_llm_cb := before_llm_cb tt;
          Pipeline.handlers :=
            [("metrics_collected", on_metrics_collected collector)] |};
     usage_collector := collector |}.

(** The first of the SDK calls [cs], in order, that raises in this run. *)
Fixpoint sdk_failure (ctx : JobContext) (cs : list SdkCall) : option PyExc :=
  match cs with
  | [] => None
  | c :: rest =>
      match sdk_raises ctx c with
      | Some e => Some e
      | None => sdk_failure ctx rest
      end
  end.

(** The SDK calls of [entrypoint], in the order of the source. *)
Definition sdk_calls : list SdkCall :=
  [call_STT; call_LLM; call_TTS; call_EOUModel; call_VoicePipelineAgent;
   call_UsageCollector; call_on; call_start; call_say].

(** The first step of [entrypoint] that fails in this run, in the order of
    the source: connecting, waiting for the participant, [userdata["vad"]],
    then the SDK calls. *)
Definition first_failure (ctx : JobContext) : option PyExc :=
  match connect_result ctx with
  | Raise e => Some e
  | Ret _ =>
      match wait_for_participant_result ctx with
      | Raise e => Some e
      | Ret _ =>
          match userdata (proc ctx) !! "vad" with
          | None => Some missing_vad
          | Some _ => sdk_failure ctx sdk_calls
          end
      end
  end.


(** More concrete data: a second participant, a screen share whose stream
    fails to close, and jobs in which something goes wrong. *)
Module Sample2.

Definition close_failed : PyExc :=
  {| exc_class := RuntimeError; exc_str := "close failed" |}.

(** A screen share with feed [f] whose [aclose()] raises. *)
Definition stuck_screen (f : Rtc.Feed) : Rtc.Track :=
  {| Rtc.sid := "TR_screen"; Rtc.class := Rtc.RemoteVideoTrack; Rtc.feed := f;
     Rtc.close_raises := Some close_failed |}.

Definition stuck (f : Rtc.Feed) : Rtc.Room :=
  {| Rtc.name := "demo";
     Rtc.remote_participants :=
       [("PA_carol",
         {| Rtc.identity := "carol";
            Rtc.track_publications :=
              [("TR_screen", {| Rtc.track := Some (stuck_screen f) |})] |})] |}.

Definition no_api_key : PyExc :=
  {| exc_class := ValueError; exc_str := "Deepgram API key is required" |}.

(** A prewarmed job in which [deepgram.STT()] raises. *)
Definition keyless_job : JobContext :=
  {| proc := prewarm {| userdata := ∅ |};
     connect_result := Ret tt;
     wait_for_participant_result := Ret (Sample.alice (Rtc.FeedFrames []));
     sdk_raises := fun c => match c with call_STT => Some no_api_key | _ => None end |}.

(** A prewarmed job in which the greeting is cancelled. *)
Definition interrupted_job : JobContext :=
  {| proc := prewarm {| userdata := ∅ |};
     connect_result := Ret tt;
     wait_for_participant_result := Ret (Sample.alice (Rtc.FeedFrames []));
     sdk_raises := fun c => match c with call_say => Some Sample.cancelled | _ => None end |}.

Definition bob : Rtc.RemoteParticipant :=
  {| Rtc.identity := "bob";
     Rtc.track_publications :=
       [("TR_cam", {| Rtc.track :=
                        Some {| Rtc.sid := "TR_cam"; Rtc.class := Rtc.RemoteVideoTrack;
                                Rtc.feed := Rtc.FeedFrames [];
                                Rtc.close_raises := None |} |})] |}.

Definition one_frame : Rtc.Feed := Rtc.FeedFrames [Rtc.Yield Sample.event].

Definition cold_job : JobContext :=
  {| proc := {| userdata := ∅ |};
     connect_result := Ret tt;
     wait_for_participant_result := Ret (Sample.alice (Rtc.FeedFrames []));
     sdk_raises := fun _ => None |}.

End Sample2.

(** * Properties *)

(** ** Worlds and heaps *)

Lemma world_eq (w1 w2 : World) :
  room w1 = room w2 -> events w1 = events w2 -> streams w1 = streams w2 ->
  collectors w1 = collectors w2 -> calls w1 = calls w2 -> w1 = w2.
Proof. destruct w1, w2; simpl; congruence. Qed.

Lemma lookup_fresh {A} (l : list A) (x : A) : (l ++ [x]) !! length l = Some x.
Proof. by apply list_lookup_middle. Qed.

Lemma alter_fresh {A} (f : A -> A) (l : list A) (x : A) :
  alter f (length l) (l ++ [x]) = l ++ [f x].
Proof. by rewrite alter_app_r_alt, Nat.sub_diag by lia. Qed.

Ltac run_io :=
  repeat (simpl;
          unfold bind, lift, modify, get, ret, raise, emit, get_local, set_local,
            logger.debug, logger.info, logger.error; simpl).

Ltac same_world :=
  f_equal; apply world_eq; simpl;
  rewrite ?alter_fresh; simpl; rewrite ?alter_fresh; simpl;
  rewrite <- ?app_assoc; done.

(** ** The frame sampler *)

Section FrameSampler.

Implicit Types (w : World) (t : Rtc.Track) (pid : string) (r : Rtc.Room).

Lemma first_video_app l1 l2 :
  first_video (l1 ++ l2) =
  match first_video l1 with Some x => Some x | None => first_video l2 end.
Proof.
  induction l1 as [|[pid pub] l1 IH]; simpl; [done|].
  destruct (live_video pub); done.
Qed.

Lemma live_video_Some pub t :
  live_video pub = Some t ->
  Rtc.track pub = Some t /\ Rtc.isinstance_RemoteVideoTrack t = true.
Proof.
  unfold live_video. destruct (Rtc.track pub) as [t0|]; [|done].
  destruct (Rtc.isinstance_RemoteVideoTrack t0) eqn:E; [|done].
  by intros [= <-].
Qed.

Lemma first_video_Some pubs pid t :
  first_video pubs = Some (pid, t) ->
  exists pre pub post,
    pubs = pre ++ (pid, pub) :: post /\
    Forall (fun q => live_video q.2 = None) pre /\
    Rtc.track pub = Some t /\ Rtc.isinstance_RemoteVideoTrack t = true.
Proof.
  induction pubs as [|[p pub] pubs IH]; simpl; [done|].
  destruct (live_video pub) as [t'|] eqn:Hlive.
  - intros [= -> ->]. apply live_video_Some in Hlive as [Ht Hv].
    exists [], pub, pubs. by split_and!.
  - intros (pre & pub' & post & -> & Hpre & Ht)%IH.
    exists ((p, pub) :: pre), pub', post. split_and!; [done| |apply Ht..].
    by constructor.
Qed.

Lemma first_video_None pubs :
  first_video pubs = None -> Forall (fun q => live_video q.2 = None) pubs.
Proof.
  induction pubs as [|[p pub] pubs IH]; simpl; [constructor|].
  destruct (live_video pub) eqn:Hlive; [done|]. intros H. constructor; auto.
Qed.

(** The inner loop stops at the first live video publication. *)
Lemma for_track_publications_first pid pubs w :
  for_track_publications pid pubs w =
  match first_video (map (fun tp => (pid, tp.2)) pubs) with
  | Some (p, t) => (Ret (Some t), happened [found_video_track p t] w)
  | None => (Ret None, w)
  end.
Proof.
  induction pubs as [|[track_id pub] pubs IH]; simpl; [done|].
  unfold live_video. destruct (Rtc.track pub) as [t|]; [|exact IH].
  destruct (Rtc.isinstance_RemoteVideoTrack t); [done | exact IH].
Qed.

(** So does the outer loop, over the concatenated publications. *)
Lemma for_remote_participants_first ps w :
  for_remote_participants ps w =
  match first_video
          (flat_map (fun pp => map (fun tp => (pp.1, tp.2))
                                   (Rtc.track_publications pp.2)) ps) with
  | Some (p, t) => (Ret (Some t), happened [found_video_track p t] w)
  | None => (Ret None, w)
  end.
Proof.
  induction ps as [|[pid p] ps IH]; simpl; [done|].
  rewrite first_video_app. unfold bind at 1.
  rewrite for_track_publications_first. simpl.
  destruct (first_video (map _ (Rtc.track_publications p))) as [[q t]|]; [done|].
  exact IH.
Qed.

Lemma get_video_track_first r w :
  get_video_track r w =
  match first_video (publications r) with
  | Some (p, t) => (Ret t, happened [found_video_track p t] w)
  | None => (Raise NoVideoSource, w)
  end.
Proof.
  unfold get_video_track, bind. rewrite for_remote_participants_first.
  unfold publications. destruct (first_video _) as [[q t]|]; done.
Qed.

(** [get_latest_image] takes exactly the paths of [capture_result]. *)
Lemma get_latest_image_runs r w : get_latest_image r w = capture_result r w.
Proof.
  unfold get_latest_image, capture_result, enter, with_local,
    try_except_Exception_finally.
  unfold bind at 1. unfold modify at 1. unfold bind at 1. unfold lift at 1.
  simpl. rewrite get_video_track_first.
  destruct (first_video (publications r)) as [[p t]|]; simpl.
  2:{ run_io. same_world. }
  unfold VideoStream.new, VideoStream.anext, VideoStream.aclose, used_stream.
  destruct (Rtc.feed t) as [e|[|[ev|e] rest]]; run_io;
    rewrite ?lookup_fresh; run_io;
    try destruct (isinstance_Exception (exc_class e)); run_io;
    rewrite ?alter_fresh, ?lookup_fresh; run_io;
    try destruct (Rtc.close_raises t); run_io; same_world.
Qed.

(** C4.  [get_video_track] returns the track of the first publication, in
    the order participants and their publications are iterated, whose
    track is present and is a remote video track, logging where it found
    it; when no publication has one it raises the [ValueError] that
    signals NoVideoSource, and does nothing else. *)
Theorem get_video_track_first_remote_video r w :
  (exists pre pid pub post t,
      publications r = pre ++ (pid, pub) :: post /\
      Forall (fun q => live_video q.2 = None) pre /\
      Rtc.track pub = Some t /\ Rtc.isinstance_RemoteVideoTrack t = true /\
      get_video_track r w = (Ret t, happened [found_video_track pid t] w))
  \/ (Forall (fun q => live_video q.2 = None) (publications r) /\
      get_video_track r w = (Raise NoVideoSource, w)).
Proof.
  rewrite get_video_track_first.
  destruct (first_video (publications r)) as [[pid t]|] eqn:Hfirst.
  - left. apply first_video_Some in Hfirst as (pre & pub & post & ? & ? & ? & ?).
    by exists pre, pid, pub, post, t.
  - right. split; [by apply first_video_None | done].
Qed.

End FrameSampler.

Section Capture.

Implicit Types (w : World) (t : Rtc.Track) (r : Rtc.Room) (e : PyExc).

(** Nothing but the capture's own events is added to the world, and
    exactly one entry of the function is recorded. *)
Lemma get_latest_image_entered r w :
  calls (get_latest_image r w).2 = calls w ++ ["get_latest_image"]
  /\ room (get_latest_image r w).2 = room w
  /\ collectors (get_latest_image r w).2 = collectors w.
Proof.
  rewrite get_latest_image_runs. unfold capture_result.
  destruct (first_video (publications r)) as [[p t]|]; [|done].
  destruct (Rtc.feed t) as [e|script]; simpl.
  - by destruct (isinstance_Exception (exc_class e)).
  - by destruct (first_step script) as [[pending_result logged] rest].
Qed.




End Capture.




(** The ways out of a capture that made a stream, on one room: the first
    frame is returned, the stream ends, the await is cancelled, closing
    raises.  The stream is closed in each but the last. *)
Example capture_returns_first_frame :
  let w := Sample.world Sample.audio_only in
  let after :=
    get_latest_image
      (Sample.sharing (Rtc.FeedFrames [Rtc.Yield Sample.event; Rtc.Yield Sample.event])) w in
  after.1 = Ret (Some Sample.frame)
  /\ streams after.2
     = [used_stream (Sample.screen (Rtc.FeedFrames [])) [Rtc.Yield Sample.event]]
  /\ events after.2
     = [EvLog INFO "Found video track TR_screen from participant PA_alice";
        EvVideoStream "TR_screen"; EvNext 0;
        EvLog DEBUG "Captured latest video frame"; EvAclose 0].
Proof. by vm_compute. Qed.

Example capture_stream_ends :
  let w := Sample.world Sample.audio_only in
  let after := get_latest_image (Sample.sharing (Rtc.FeedFrames [])) w in
  after.1 = Ret None
  /\ streams after.2 = [used_stream (Sample.screen (Rtc.FeedFrames [])) []]
  /\ events after.2
     = [EvLog INFO "Found video track TR_screen from participant PA_alice";
        EvVideoStream "TR_screen"; EvNext 0; EvAclose 0].
Proof. by vm_compute. Qed.

Example capture_cancelled :
  let w := Sample.world Sample.audio_only in
  let after :=
    get_latest_image (Sample.sharing (Rtc.FeedFrames [Rtc.Fail Sample.cancelled])) w in
  after.1 = Raise Sample.cancelled
  /\ streams after.2 = [used_stream (Sample.screen (Rtc.FeedFrames [])) []]
  /\ events after.2
     = [EvLog INFO "Found video track TR_screen from participant PA_alice";
        EvVideoStream "TR_screen"; EvNext 0; EvAclose 0].
Proof. by vm_compute. Qed.

Example capture_close_raises_after_caught_error :
  let w := Sample.world Sample.audio_only in
  let after :=
    get_latest_image (Sample2.stuck (Rtc.FeedFrames [Rtc.Fail Sample.decode_failed])) w in
  after.1 = Raise Sample2.close_failed
  /\ events after.2
     = [EvLog INFO "Found video track TR_screen from participant PA_carol";
        EvVideoStream "TR_screen"; EvNext 0;
        EvLog ERROR "Failed to get latest image: decode failed"; EvAclose 0].
Proof. by vm_compute. Qed.

Example capture_without_video :
  let after := get_latest_image Sample.audio_only (Sample.world Sample.audio_only) in
  after.1 = Ret None
  /\ streams after.2 = []
  /\ events after.2
     = [EvLog ERROR "Failed to get latest image: No remote video track found in the room"].
Proof. by vm_compute. Qed.




(** ** The tool *)

(** C6.  For every pair of arguments [saw_sheet] returns the same
    acknowledgment, and logging one line is all it does to the world; its
    result is the same whatever the arguments and the world. *)
Theorem saw_sheet_acknowledges (sheet_name sheet_url : string) (w : World) :
  AssistantFnc.saw_sheet sheet_name sheet_url w
  = (Ret "I just saw a Google Sheet",
     happened [EvLog INFO ("################" +:+ nl +:+ nl +:+ "Saw a sheet "
                           +:+ sheet_name +:+ " at " +:+ sheet_url)] w)
  /\ forall (name' url' : string) (w' : World),
       (AssistantFnc.saw_sheet name' url' w').1
       = (AssistantFnc.saw_sheet sheet_name sheet_url w).1.
Proof. split; reflexivity. Qed.

(** ** The pre-generation hook and the conversation context *)

Section Hook.

Context {Agent : Type} (assistant : Agent).
Implicit Types (c : Llm.ChatContext) (w : World).

(** The hook, path by path, in terms of the capture it makes. *)
Lemma before_llm_cb_runs c w :
  before_llm_cb assistant (c, w) =
  match get_latest_image (room w) w with
  | (Ret (Some image), w') =>
      (Ret tt,
       (Llm.messages_append c (image_message image),
        happened [EvLog DEBUG "Added latest frame to conversation context"] w'))
  | (Ret None, w') => (Ret tt, (c, w'))
  | (Raise e, w') => (Raise e, (c, w'))
  end.
Proof.
  unfold before_llm_cb. unfold bind at 1, lift at 1. simpl.
  unfold bind at 1, get at 1.
  destruct (get_latest_image (room w) w) as [[[image|]|e] w']; reflexivity.
Qed.

(** C1.  One run of the hook makes exactly one capture.  When the capture
    returns a frame, the hook returns and the context is the old one with
    one message appended: role [user], content one image holding that
    frame.  When the capture returns [None], the hook returns and the
    context is unchanged. *)
Theorem before_llm_cb_attaches_frame c w :
  calls (before_llm_cb assistant (c, w)).2.2 = calls w ++ ["get_latest_image"]
  /\ (forall image,
        (get_latest_image (room w) w).1 = Ret (Some image) ->
        (before_llm_cb assistant (c, w)).1 = Ret tt /\
        Llm.messages (before_llm_cb assistant (c, w)).2.1
        = Llm.messages c
          ++ [ {| Llm.role := Llm.user;
                  Llm.content :=
                    Llm.ContentList [Llm.PartImage {| Llm.image := image |}] |} ])
  /\ ((get_latest_image (room w) w).1 = Ret None ->
      (before_llm_cb assistant (c, w)).1 = Ret tt /\
      (before_llm_cb assistant (c, w)).2.1 = c).
Proof.
  rewrite before_llm_cb_runs.
  pose proof (get_latest_image_entered (room w) w) as (Hcalls & _ & _).
  destruct (get_latest_image (room w) w) as [[[image|]|e] w']; simpl in *.
  - split_and!; [done | by intros ? [= <-] | done].
  - by split_and!.
  - by split_and!.
Qed.


End Hook.



Lemma before_llm_cb_attaches_frame_witness :
  Llm.messages
    (before_llm_cb tt
       (initial_ctx,
        Sample.world (Sample.sharing (Rtc.FeedFrames [Rtc.Yield Sample.event])))).2.1
  = Llm.messages initial_ctx ++ [image_message Sample.frame].
Proof.
  apply (proj1 (proj2 (before_llm_cb_attaches_frame tt initial_ctx
    (Sample.world (Sample.sharing (Rtc.FeedFrames [Rtc.Yield Sample.event])))))
    Sample.frame).
  reflexivity.
Defined.


(** ** Startup *)

Section Entrypoint.

Implicit Types (ctx : JobContext) (w : World).

(** [entrypoint], path by path.  The plugin, agent and collector
    constructors leave nothing behind when they raise; from the collector
    on, what was built or started stays. *)
Lemma entrypoint_runs ctx w :
  let connecting := EvLog INFO ("connecting to room " +:+ Rtc.name (room w)) in
  entrypoint ctx w =
  match connect_result ctx with
  | Raise e => (Raise e, happened [connecting; EvConnect SUBSCRIBE_ALL] w)
  | Ret _ =>
      match wait_for_participant_result ctx with
      | Raise e =>
          (Raise e,
           happened [connecting; EvConnect SUBSCRIBE_ALL; EvWaitForParticipant] w)
      | Ret participant =>
          let joined :=
            happened [connecting; EvConnect SUBSCRIBE_ALL; EvWaitForParticipant;
                      EvLog INFO ("starting voice assistant for participant "
                                  +:+ Rtc.identity participant)] w in
          match userdata (proc ctx) !! "vad" with
          | None => (Raise missing_vad, joined)
          | Some vad =>
              match sdk_failure ctx [call_STT; call_LLM; call_TTS; call_EOUModel;
                                     call_VoicePipelineAgent; call_UsageCollector] with
              | Some e => (Raise e, joined)
              | None =>
                  let equipped :=
                    with_collectors (fun cs => cs ++ [Metrics.empty_usage]) joined in
                  let start :=
                    EvStart (Rtc.name (room w)) (Rtc.identity participant) in
                  match sdk_raises ctx call_on with
                  | Some e => (Raise e, equipped)
                  | None =>
                      match sdk_raises ctx call_start with
                      | Some e => (Raise e, happened [start] equipped)
                      | None =>
                          (match sdk_raises ctx call_say with
                           | Some e => Raise e
                           | None => Ret (session_of vad (length (collectors w)))
                           end,
                           happened [start; EvSay greeting true] equipped)
                      end
                  end
              end
          end
      end
  end.
Proof.
  unfold entrypoint, connect, wait_for_participant, getitem, UsageCollector,
    Pipeline.start, Pipeline.say, Pipeline.on, session_of.
  unfold construct, sdk. run_io.
  destruct (connect_result ctx) as [[]|e]; [|same_world].
  destruct (wait_for_participant_result ctx) as [participant|e]; [|same_world].
  simpl. destruct (userdata (proc ctx) !! "vad") as [vad|]; simpl; [|same_world].
  destruct (sdk_raises ctx call_STT); run_io; [same_world|].
  destruct (sdk_raises ctx call_LLM); run_io; [same_world|].
  destruct (sdk_raises ctx call_TTS); run_io; [same_world|].
  destruct (sdk_raises ctx call_EOUModel); run_io; [same_world|].
  destruct (sdk_raises ctx call_VoicePipelineAgent); run_io; [same_world|].
  destruct (sdk_raises ctx call_UsageCollector); run_io; [same_world|].
  destruct (sdk_raises ctx call_on); run_io; [same_world|].
  destruct (sdk_raises ctx call_start); run_io; [same_world|].
  destruct (sdk_raises ctx call_say); run_io; same_world.
Qed.

(** What is known of a run of [entrypoint] that returned. *)
Lemma entrypoint_returns ctx w (s : Session) (w1 : World) :
  entrypoint ctx w = (Ret s, w1) ->
  first_failure ctx = None
  /\ collectors w1 = collectors w ++ [Metrics.empty_usage]
  /\ exists vad,
       userdata (proc ctx) !! "vad" = Some vad
       /\ s = session_of vad (length (collectors w)).
Proof.
  rewrite entrypoint_runs. unfold first_failure, sdk_calls. simpl.
  destruct (connect_result ctx) as [[]|e]; [|done].
  destruct (wait_for_participant_result ctx) as [participant|e]; [|done].
  destruct (userdata (proc ctx) !! "vad") as [vad|]; [|done].
  destruct (sdk_raises ctx call_STT); [done|].
  destruct (sdk_raises ctx call_LLM); [done|].
  destruct (sdk_raises ctx call_TTS); [done|].
  destruct (sdk_raises ctx call_EOUModel); [done|].
  destruct (sdk_raises ctx call_VoicePipelineAgent); [done|].
  destruct (sdk_raises ctx call_UsageCollector); [done|].
  destruct (sdk_raises ctx call_on); [done|].
  destruct (sdk_raises ctx call_start); [done|].
  destruct (sdk_raises ctx call_say); [done|].
  intros [= <- <-]. split_and!; [done..|]. by exists vad.
Qed.



End Entrypoint.

(** ** Metrics *)

Section MetricsChannel.

Implicit Types (w : World) (u : Metrics.AggregateUsage)
  (ms : list Metrics.AgentMetrics) (c : nat).

(** The handler logs the event and hands it to the collector. *)
Lemma on_metrics_collected_runs c m w :
  on_metrics_collected c m w =
  (Ret tt,
   with_collectors (alter (fun u => Metrics.collect u m) c)
     (happened [EvLogMetrics m] w)).
Proof. reflexivity. Qed.

(** Additive accumulation: folding [collect] over events adds up their
    usage. *)
Lemma collect_all ms u : foldl Metrics.collect u ms = usage_plus u ms.
Proof.
  revert u. induction ms as [|m ms IH]; intros u; simpl.
  - unfold usage_plus; destruct u; simpl. f_equal; lia.
  - rewrite IH. unfold usage_plus, Metrics.collect; simpl. f_equal; lia.
Qed.

Lemma usage_plus_perm ms ms' u : ms ≡ₚ ms' -> usage_plus u ms = usage_plus u ms'.
Proof.
  intros H. unfold usage_plus.
  by rewrite (Permutation_length H), !(sum_list_with_Permutation_proper _ _ _ H).
Qed.

Lemma deliver_cons (a : Pipeline.VoicePipelineAgent) c m ms w :
  Pipeline.handlers a = [("metrics_collected", on_metrics_collected c)] ->
  deliver a (m :: ms) w =
  deliver a ms (with_collectors (alter (fun u => Metrics.collect u m) c)
                  (happened [EvLogMetrics m] w)).
Proof.
  intros Ha. simpl. unfold Pipeline.emit_event. rewrite Ha. reflexivity.
Qed.

(** Delivering events to an agent whose only [metrics_collected] handler
    is [on_metrics_collected c]: each is logged, in order, and each is
    collected by [c]; other collectors are not touched. *)
Lemma deliver_runs (a : Pipeline.VoicePipelineAgent) c ms w u :
  Pipeline.handlers a = [("metrics_collected", on_metrics_collected c)] ->
  collectors w !! c = Some u ->
  (deliver a ms w).1 = Ret tt
  /\ events (deliver a ms w).2 = events w ++ map EvLogMetrics ms
  /\ collectors (deliver a ms w).2 !! c = Some (foldl Metrics.collect u ms)
  /\ (forall j, j <> c ->
        collectors (deliver a ms w).2 !! j = collectors w !! j).
Proof.
  intros Ha. revert w u. induction ms as [|m ms IH]; intros w u Hc.
  - simpl. rewrite app_nil_r. done.
  - rewrite (deliver_cons a c m ms w Ha). simpl.
    set (w1 := with_collectors _ _).
    assert (collectors w1 !! c = Some (Metrics.collect u m)) as Hc1.
    { subst w1; simpl. by rewrite list_lookup_alter_eq, Hc. }
    destruct (IH w1 _ Hc1) as (Hret & Hev & Hcol & Hothers).
    split_and!; [done| | done |].
    + rewrite Hev. subst w1; simpl. by rewrite <- app_assoc.
    + intros j Hj. rewrite (Hothers j Hj). subst w1; simpl.
      by rewrite list_lookup_alter_ne.
Qed.

(** C9.  In a session that [entrypoint] set up, the collector starts
    empty, and every event delivered on the metrics channel is logged and
    collected: none is dropped.  What the collector holds afterwards is
    what it held plus the usage of all the events, one count each, and
    the same in whatever order they arrive. *)
Theorem metrics_all_collected (ctx : JobContext) (w w1 : World) (s : Session) :
  entrypoint ctx w = (Ret s, w1) ->
  collectors w1 !! usage_collector s = Some Metrics.empty_usage
  /\ forall w2 u ms,
       collectors w2 !! usage_collector s = Some u ->
       (deliver (agent s) ms w2).1 = Ret tt
       /\ events (deliver (agent s) ms w2).2 = events w2 ++ map EvLogMetrics ms
       /\ collectors (deliver (agent s) ms w2).2 !! usage_collector s
          = Some (foldl Metrics.collect u ms)
       /\ foldl Metrics.collect u ms = usage_plus u ms
       /\ forall ms', ms' ≡ₚ ms ->
            collectors (deliver (agent s) ms' w2).2 !! usage_collector s
            = collectors (deliver (agent s) ms w2).2 !! usage_collector s.
Proof.
  intros (_ & Hcollectors & vad & _ & ->)%entrypoint_returns.
  change (usage_collector (session_of vad (length (collectors w))))
    with (length (collectors w)).
  split; [rewrite Hcollectors; apply lookup_fresh|].
  intros w2 u ms Hu.
  set (ag := agent (session_of vad (length (collectors w)))).
  assert (Pipeline.handlers ag
          = [("metrics_collected", on_metrics_collected (length (collectors w)))])
    as Hag by reflexivity.
  destruct (deliver_runs ag _ ms w2 u Hag Hu) as (Hret & Hev & Hcol & _).
  split_and!; [exact Hret | exact Hev | exact Hcol | apply collect_all |].
  intros ms' Hperm.
  destruct (deliver_runs ag _ ms' w2 u Hag Hu) as (_ & _ & Hcol' & _).
  rewrite Hcol, Hcol', !collect_all. f_equal. by apply usage_plus_perm.
Qed.

End MetricsChannel.


Lemma metrics_all_collected_witness :
  exists s w1,
    entrypoint Sample.job (Sample.world Sample.audio_only) = (Ret s, w1)
    /\ collectors (deliver (agent s) [Sample.llm_call; Sample.tts_call] w1).2
         !! usage_collector s
       = Some {| Metrics.events_collected := 2; Metrics.total_cost := 151;
                 Metrics.total_latency := 380 |}.
Proof.
  destruct (entrypoint Sample.job (Sample.world Sample.audio_only))
    as [[s|e] w1] eqn:Hrun; [|vm_compute in Hrun; discriminate].
  exists s, w1. split; [reflexivity|].
  destruct (metrics_all_collected _ _ _ _ Hrun) as [Hempty Hall].
  destruct (Hall _ _ [Sample.llm_call; Sample.tts_call] Hempty)
    as (_ & _ & Hcollected & _).
  rewrite Hcollected. reflexivity.
Defined.

(** The endpointing delays [entrypoint] hands to the pipeline: half a second
    and five seconds. *)
Lemma entrypoint_configures_endpointing (ctx : JobContext) (w w1 : World)
    (s : Session) :
  entrypoint ctx w = (Ret s, w1) ->
  Pipeline.min_endpointing_delay (agent s) = 1 # 2
  /\ Pipeline.max_endpointing_delay (agent s) = 5 # 1
  /\ (Pipeline.min_endpointing_delay (agent s)
      <= Pipeline.max_endpointing_delay (agent s))%Q.
Proof.
  intros (_ & _ & vad & _ & ->)%entrypoint_returns. simpl.
  split_and!; [done..|]. by vm_compute.
Qed.

(** * Further properties of the module *)

(** ** The frame sampler *)

Section MoreFrameSampler.

Implicit Types (w : World) (t : Rtc.Track) (r : Rtc.Room) (e : PyExc).

Lemma publications_app n ps1 ps2 :
  publications (room_of n (ps1 ++ ps2))
  = publications (room_of n ps1) ++ publications (room_of n ps2).
Proof. unfold publications, room_of; simpl. apply flat_map_app. Qed.

(** X1.  The search goes through the participants in order and stops at the
    first hit: when the first participants already give a track, more
    participants after them change nothing; when they give none, the
    result is that of the search among the others. *)
Theorem get_video_track_app n ps1 ps2 w :
  (forall t w1, get_video_track (room_of n ps1) w = (Ret t, w1) ->
                get_video_track (room_of n (ps1 ++ ps2)) w = (Ret t, w1))
  /\ ((get_video_track (room_of n ps1) w).1 = Raise NoVideoSource ->
      get_video_track (room_of n (ps1 ++ ps2)) w
      = get_video_track (room_of n ps2) w).
Proof.
  rewrite !get_video_track_first, publications_app, first_video_app.
  destruct (first_video (publications (room_of n ps1))) as [[p t0]|]; simpl.
  - split; [done | discriminate].
  - split; [discriminate | done].
Qed.

(** X2.  A capture returns a frame exactly when the first live video track
    of the room gives a stream whose first step yields an event and whose
    [aclose()] then returns; the frame is the one of that event. *)
Theorem get_latest_image_frame_iff r w (image : Rtc.VideoFrame) :
  (get_latest_image r w).1 = Ret (Some image) <->
  exists pid t ev rest,
    first_video (publications r) = Some (pid, t)
    /\ Rtc.feed t = Rtc.FeedFrames (Rtc.Yield ev :: rest)
    /\ Rtc.close_raises t = None
    /\ image = Rtc.frame ev.
Proof.
  rewrite get_latest_image_runs. unfold capture_result.
  destruct (first_video (publications r)) as [[p t]|].
  2:{ split; [done | by intros (? & ? & ? & ? & ? & _)]. }
  destruct (Rtc.feed t) as [e|[|[ev|e] rest]] eqn:Hfeed; simpl.
  - split; [by destruct (isinstance_Exception _)
           | intros (? & ? & ? & ? & [= <- <-] & ? & _); congruence].
  - split; [by destruct (Rtc.close_raises t)
           | intros (? & ? & ? & ? & [= <- <-] & ? & _); congruence].
  - destruct (Rtc.close_raises t) as [e'|] eqn:Hclose; split.
    + done.
    + intros (? & ? & ? & ? & [= <- <-] & ? & ? & _); congruence.
    + intros [= <-]. by exists p, t, ev, rest.
    + intros (? & ? & ? & ? & [= <- <-] & ? & _ & ->). congruence.
  - split; [destruct (isinstance_Exception _); by destruct (Rtc.close_raises t)
           | intros (? & ? & ? & ? & [= <- <-] & ? & _); congruence].
Qed.


(** X4.  Nothing is cached.  The result of a capture is decided by the
    room alone, never by what the module did before; and a second capture
    in a room with a video track that gives a stream builds a stream of its
    own. *)
Theorem get_latest_image_no_cache r w :
  (forall w', (get_latest_image r w').1 = (get_latest_image r w).1)
  /\ forall pid t script,
       first_video (publications r) = Some (pid, t) ->
       Rtc.feed t = Rtc.FeedFrames script ->
       streams (get_latest_image r (get_latest_image r w).2).2
       = streams w ++ [used_stream t (tail script); used_stream t (tail script)].
Proof.
  split.
  - intros w'. rewrite !get_latest_image_runs. unfold capture_result.
    destruct (first_video (publications r)) as [[p t]|]; [|done].
    destruct (Rtc.feed t) as [e|script]; simpl.
    + by destruct (isinstance_Exception (exc_class e)).
    + by destruct (first_step script) as [[pending_result logged] rest].
  - intros pid t script Hfirst Hfeed.
    rewrite !get_latest_image_runs. unfold capture_result.
    rewrite Hfirst, Hfeed.
    destruct script as [|[ev|e] rest]; simpl;
      try destruct (isinstance_Exception (exc_class e)); simpl;
      by rewrite <- app_assoc.
Qed.

(** X5.  A capture logs an error line exactly when it caught an exception:
    once then, and never otherwise.  In particular a stream that ends
    without a frame gives [None] with no error line, and an exception that
    propagates is not logged. *)
Theorem get_latest_image_error_log r w :
  exists es,
    events (get_latest_image r w).2 = events w ++ es
    /\ occurrences is_error_log es =
       match capture_error r with
       | Some e => if isinstance_Exception (exc_class e) then 1 else 0
       | None => 0
       end.
Proof.
  rewrite get_latest_image_runs. unfold capture_result, capture_error.
  destruct (first_video (publications r)) as [[p t]|].
  2:{ eexists. split; done. }
  destruct (Rtc.feed t) as [e|[|[ev|e] rest]]; simpl;
    try destruct (isinstance_Exception (exc_class e)); simpl;
    eexists; split; done.
Qed.

End MoreFrameSampler.

(** ** The hook *)

Section MoreHook.

Context {Agent : Type} (assistant : Agent).
Implicit Types (c : Llm.ChatContext) (w : World) (e : PyExc).

(** X6.  When the hook raises, the exception is the one that left the
    capture, and the context is as it was.  It is either the exception of
    the [aclose()] in the capture's [finally] block, of whatever class, or,
    when closing did not raise, the error the capture met, whose class is
    then outside [Exception]. *)
Theorem before_llm_cb_raises c w e :
  (before_llm_cb assistant (c, w)).1 = Raise e ->
  (get_latest_image (room w) w).1 = Raise e
  /\ (before_llm_cb assistant (c, w)).2.1 = c
  /\ (close_error (room w) = Some e
      \/ (close_error (room w) = None
          /\ capture_error (room w) = Some e
          /\ isinstance_Exception (exc_class e) = false)).
Proof.
  rewrite before_llm_cb_runs.
  destruct (get_latest_image (room w) w) as [[[image|]|e0] w'] eqn:Hcapture;
    simpl; try done.
  intros [= <-]. split_and!; [done..|].
  rewrite get_latest_image_runs in Hcapture.
  unfold capture_result, capture_error, close_error in *.
  destruct (first_video (publications (room w))) as [[p t]|]; [|done].
  destruct (Rtc.feed t) as [e1|[|[ev|e1] rest]]; simpl in *.
  - destruct (isinstance_Exception (exc_class e1)) eqn:Hcls; [done|].
    injection Hcapture as <- _. by right.
  - destruct (Rtc.close_raises t); [|done]. injection Hcapture as <- _. by left.
  - destruct (Rtc.close_raises t); [|done]. injection Hcapture as <- _. by left.
  - destruct (isinstance_Exception (exc_class e1)) eqn:Hcls; simpl in *;
      (destruct (Rtc.close_raises t);
       [injection Hcapture as <- _; by left|]); [done|].
    injection Hcapture as <- _. by right.
Qed.

(** X7.  In a room where no remote video track is published the hook
    returns normally, leaves the context as it was, builds no stream, and
    the one thing it leaves behind is the error line of the failed
    capture. *)
Theorem before_llm_cb_without_video c w :
  (get_video_track (room w) w).1 = Raise NoVideoSource ->
  before_llm_cb assistant (c, w)
  = (Ret tt, (c, happened [failed_to_get NoVideoSource] (entered w))).
Proof.
  rewrite before_llm_cb_runs, get_latest_image_runs, get_video_track_first.
  unfold capture_result.
  by destruct (first_video (publications (room w))) as [[p t]|].
Qed.

End MoreHook.

(** X8.  Images pile up.  After the hook has run in a series of worlds, the
    context is the one it started from followed by one user image message
    for each run whose capture returned a frame, in the order of the runs;
    nothing is dropped or merged, and runs without a frame leave no
    trace in it. *)
Theorem run_hooks_messages (c : Llm.ChatContext) (ws : list World) :
  Llm.messages (run_hooks c ws)
  = Llm.messages c ++ map image_message (omap captured_frame ws).
Proof.
  revert c. induction ws as [|w ws IH]; intros c; simpl.
  - by rewrite app_nil_r.
  - rewrite IH, before_llm_cb_runs. unfold captured_frame.
    destruct (get_latest_image (room w) w) as [[[image|]|e] w']; simpl;
      [by rewrite <- app_assoc | done..].
Qed.

(** ** Streams are left open only by a failing close *)



(** ** The job *)

Section MoreEntrypoint.

Implicit Types (ctx : JobContext) (w : World) (e : PyExc).

Ltac each_sdk_call ctx tac :=
  destruct (sdk_raises ctx call_STT) eqn:?; [tac|];
  destruct (sdk_raises ctx call_LLM) eqn:?; [tac|];
  destruct (sdk_raises ctx call_TTS) eqn:?; [tac|];
  destruct (sdk_raises ctx call_EOUModel) eqn:?; [tac|];
  destruct (sdk_raises ctx call_VoicePipelineAgent) eqn:?; [tac|];
  destruct (sdk_raises ctx call_UsageCollector) eqn:?; [tac|];
  destruct (sdk_raises ctx call_on) eqn:?; [tac|];
  destruct (sdk_raises ctx call_start) eqn:?; [tac|];
  destruct (sdk_raises ctx call_say) eqn:?; [tac|].

(** X10.  [entrypoint] fails at the first step that fails, in the order of
    the source: connecting, waiting for the participant, the lookup of
    ["vad"] (the [KeyError]), then the constructors of the plugins, of the
    agent and of the collector, the registration of the handler,
    [agent.start] and the greeting.  It raises the exception of that step,
    and it returns exactly when no step fails. *)
Theorem entrypoint_raises_iff ctx w :
  (forall e, (entrypoint ctx w).1 = Raise e <-> first_failure ctx = Some e)
  /\ ((exists s, (entrypoint ctx w).1 = Ret s) <-> first_failure ctx = None).
Proof.
  rewrite entrypoint_runs. unfold first_failure, sdk_calls. simpl.
  destruct (connect_result ctx) as [[]|e0]; simpl.
  2:{ split; [intros e; split; congruence | split; [by intros [? ?] | done]]. }
  destruct (wait_for_participant_result ctx) as [participant|e0]; simpl.
  2:{ split; [intros e; split; congruence | split; [by intros [? ?] | done]]. }
  destruct (userdata (proc ctx) !! "vad") as [vad|]; simpl.
  2:{ split; [intros e; split; congruence | split; [by intros [? ?] | done]]. }
  each_sdk_call ctx
    ltac:(simpl; split;
          [intros e; split; congruence | split; [by intros [? ?] | done]]).
  simpl. split; [intros e; split; congruence | split; [done | by eexists]].
Qed.

Ltac footprint_without_collector w Hnone Hwait :=
  let H := fresh in
  eexists _, []; rewrite (app_nil_r (collectors w));
  split_and!;
  [ done | done | split; [done | intros _; apply Hwait] | done | done
  | by left | by intros [? ?]
  | intros H; exfalso; revert H; apply Hnone; by repeat constructor ].

(** X11.  What a run of [entrypoint] leaves, however it ends.  It awaits
    the participant only if connecting succeeded.  It builds no stream and
    makes no capture.  It leaves at most one usage collector, an empty one;
    it leaves one whenever it returns, and also whenever it got to call
    [agent.start], even if it then raises because the start or the
    greeting failed. *)
Theorem entrypoint_footprint ctx w :
  exists es new,
    events (entrypoint ctx w).2 = events w ++ es
    /\ collectors (entrypoint ctx w).2 = collectors w ++ new
    /\ (EvWaitForParticipant ∈ es <-> connect_result ctx = Ret tt)
    /\ streams (entrypoint ctx w).2 = streams w
    /\ calls (entrypoint ctx w).2 = calls w
    /\ (new = [] \/ new = [Metrics.empty_usage])
    /\ ((exists s, (entrypoint ctx w).1 = Ret s) -> new = [Metrics.empty_usage])
    /\ ((exists ev, is_start ev = true /\ ev ∈ es) -> new = [Metrics.empty_usage]).
Proof.
  rewrite entrypoint_runs. simpl.
  assert (forall (es : list Event),
            Forall (fun ev => is_start ev = false) es ->
            (exists ev, is_start ev = true /\ ev ∈ es) -> False) as Hnone.
  { intros es Hall (ev & Hev & Hin). rewrite Forall_forall in Hall.
    specialize (Hall ev Hin). congruence. }
  destruct (connect_result ctx) as [[]|e]; simpl.
  2:{ eexists _, []. rewrite (app_nil_r (collectors w)).
      split_and!; [done | done | | done | done | by left | by intros [? ?] |].
      - split; [|done]. intros Hin.
        repeat (apply elem_of_cons in Hin as [?|Hin]; [done|]).
        by apply elem_of_nil in Hin.
      - intros H. exfalso. revert H. apply Hnone. by repeat constructor. }
  assert (forall (es : list Event), EvWaitForParticipant ∈
            EvLog INFO ("connecting to room " +:+ Rtc.name (room w))
            :: EvConnect SUBSCRIBE_ALL :: EvWaitForParticipant :: es) as Hwait
    by (intros; set_solver).
  destruct (wait_for_participant_result ctx) as [participant|e]; simpl.
  2:{ footprint_without_collector w Hnone Hwait. }
  destruct (userdata (proc ctx) !! "vad") as [vad|]; simpl.
  2:{ footprint_without_collector w Hnone Hwait. }
  destruct (sdk_raises ctx call_STT); simpl;
    [footprint_without_collector w Hnone Hwait|].
  destruct (sdk_raises ctx call_LLM); simpl;
    [footprint_without_collector w Hnone Hwait|].
  destruct (sdk_raises ctx call_TTS); simpl;
    [footprint_without_collector w Hnone Hwait|].
  destruct (sdk_raises ctx call_EOUModel); simpl;
    [footprint_without_collector w Hnone Hwait|].
  destruct (sdk_raises ctx call_VoicePipelineAgent); simpl;
    [footprint_without_collector w Hnone Hwait|].
  destruct (sdk_raises ctx call_UsageCollector); simpl;
    [footprint_without_collector w Hnone Hwait|].
  destruct (sdk_raises ctx call_on); simpl.
  { eexists _, [_].
    split_and!; [done | done | split; [done | intros _; apply Hwait]
                | done | done | by right | done | done]. }
  destruct (sdk_raises ctx call_start); simpl.
  { eexists _, [_].
    split_and!; [by rewrite <- app_assoc | done
                | split; [done | intros _; apply Hwait]
                | done | done | by right | done | done]. }
  eexists _, [_].
  split_and!; [by rewrite <- app_assoc | done
              | split; [done | intros _; apply Hwait]
              | done | done | by right | done | done].
Qed.

(** X12.  After [prewarm], whatever the process held before, [entrypoint]
    finds its voice-activity detector: the lookup of ["vad"] is never the
    step that fails, so an exception of [entrypoint] is one that connecting,
    waiting for the participant or an SDK call raised; it returns whenever
    none of these raises; and the agent it builds uses the detector
    [prewarm] loaded. *)
Theorem entrypoint_after_prewarm ctx (p : JobProcess) w :
  proc ctx = prewarm p ->
  (forall e, (entrypoint ctx w).1 = Raise e ->
             connect_result ctx = Raise e
             \/ wait_for_participant_result ctx = Raise e
             \/ exists c, sdk_raises ctx c = Some e)
  /\ (forall participant,
        connect_result ctx = Ret tt ->
        wait_for_participant_result ctx = Ret participant ->
        (forall c, sdk_raises ctx c = None) ->
        exists s, (entrypoint ctx w).1 = Ret s)
  /\ (forall s, (entrypoint ctx w).1 = Ret s ->
                Pipeline.vad (agent s) = silero_VAD).
Proof.
  intros Hproc. rewrite entrypoint_runs. simpl. rewrite Hproc.
  unfold prewarm; simpl. rewrite lookup_insert_eq.
  destruct (connect_result ctx) as [[]|e0]; simpl.
  2:{ split_and!; [intros e [= <-]; by left | done..]. }
  destruct (wait_for_participant_result ctx) as [participant|e0]; simpl.
  2:{ split_and!; [intros e [= <-]; right; by left | done..]. }
  each_sdk_call ctx
    ltac:(simpl; split_and!;
          [ intros e [= <-]; right; right; by eexists
          | intros ? _ _ Hall; rewrite Hall in *; done
          | done ]).
  simpl. split_and!; [done | intros; by eexists | by intros s [= <-]].
Qed.

(** X13.  Every session has a collector of its own.  When [entrypoint] has
    set up two sessions one after the other, their collectors are distinct
    objects, and the metrics events of the first session leave the
    collector of the second as it was. *)
Theorem sessions_have_own_collectors ctx1 ctx2 w w1 w2 (s1 s2 : Session) :
  entrypoint ctx1 w = (Ret s1, w1) ->
  entrypoint ctx2 w1 = (Ret s2, w2) ->
  usage_collector s1 <> usage_collector s2
  /\ forall ms,
       collectors (deliver (agent s1) ms w2).2 !! usage_collector s2
       = collectors w2 !! usage_collector s2
       /\ collectors (deliver (agent s1) ms w2).2 !! usage_collector s1
          = Some (usage_plus Metrics.empty_usage ms).
Proof.
  intros (_ & Hw1 & vad1 & _ & ->)%entrypoint_returns
         (_ & Hw2 & vad2 & _ & ->)%entrypoint_returns.
  change (usage_collector (session_of vad1 (length (collectors w))))
    with (length (collectors w)).
  change (usage_collector (session_of vad2 (length (collectors w1))))
    with (length (collectors w1)).
  set (ag := agent (session_of vad1 (length (collectors w)))).
  rewrite Hw1, length_app. cbn [length].
  split; [lia|]. intros ms.
  assert (Pipeline.handlers ag
          = [("metrics_collected", on_metrics_collected (length (collectors w)))])
    as Hag by reflexivity.
  assert (collectors w2 !! length (collectors w) = Some Metrics.empty_usage)
    as Hmine.
  { rewrite Hw2, Hw1. rewrite lookup_app_l; [apply lookup_fresh|].
    rewrite length_app; simpl; lia. }
  destruct (deliver_runs ag _ ms w2 _ Hag Hmine) as (_ & _ & Hcol & Hothers).
  split; [apply Hothers; lia | by rewrite Hcol, collect_all].
Qed.

End MoreEntrypoint.

(** ** The further properties at concrete rooms and jobs *)

Lemma get_video_track_app_witness :
  get_video_track
    (room_of "demo" ([("PA_alice", Sample.alice Sample2.one_frame)]
                     ++ [("PA_bob", Sample2.bob)]))
    (Sample.world Sample.audio_only)
  = (Ret (Sample.screen Sample2.one_frame),
     happened [found_video_track "PA_alice" (Sample.screen Sample2.one_frame)]
       (Sample.world Sample.audio_only)).
Proof.
  apply (proj1 (get_video_track_app "demo"
                  [("PA_alice", Sample.alice Sample2.one_frame)]
                  [("PA_bob", Sample2.bob)] (Sample.world Sample.audio_only))).
  reflexivity.
Defined.

Lemma get_latest_image_frame_iff_witness :
  (get_latest_image (Sample.sharing Sample2.one_frame)
     (Sample.world Sample.audio_only)).1 = Ret (Some Sample.frame).
Proof.
  apply (proj2 (get_latest_image_frame_iff (Sample.sharing Sample2.one_frame)
                  (Sample.world Sample.audio_only) Sample.frame)).
  exists "PA_alice", (Sample.screen Sample2.one_frame), Sample.event, [].
  split_and!; reflexivity.
Defined.


Lemma get_latest_image_no_cache_witness :
  streams
    (get_latest_image (Sample.sharing Sample2.one_frame)
       (get_latest_image (Sample.sharing Sample2.one_frame)
          (Sample.world Sample.audio_only)).2).2
  = [used_stream (Sample.screen Sample2.one_frame) [];
     used_stream (Sample.screen Sample2.one_frame) []].
Proof.
  apply (proj2 (get_latest_image_no_cache (Sample.sharing Sample2.one_frame)
                  (Sample.world Sample.audio_only))
           "PA_alice" (Sample.screen Sample2.one_frame) [Rtc.Yield Sample.event]);
    reflexivity.
Defined.

Lemma before_llm_cb_raises_witness :
  (get_latest_image
     (room (Sample.world (Sample2.stuck Sample2.one_frame)))
     (Sample.world (Sample2.stuck Sample2.one_frame))).1
  = Raise Sample2.close_failed
  /\ (before_llm_cb tt
        (initial_ctx, Sample.world (Sample2.stuck Sample2.one_frame))).2.1
     = initial_ctx
  /\ (close_error (room (Sample.world (Sample2.stuck Sample2.one_frame)))
      = Some Sample2.close_failed
      \/ (close_error (room (Sample.world (Sample2.stuck Sample2.one_frame))) = None
          /\ capture_error (room (Sample.world (Sample2.stuck Sample2.one_frame)))
             = Some Sample2.close_failed
          /\ isinstance_Exception (exc_class Sample2.close_failed) = false)).
Proof.
  apply (before_llm_cb_raises tt initial_ctx
           (Sample.world (Sample2.stuck Sample2.one_frame)) Sample2.close_failed).
  reflexivity.
Defined.

Lemma before_llm_cb_without_video_witness :
  before_llm_cb tt (initial_ctx, Sample.world Sample.audio_only)
  = (Ret tt,
     (initial_ctx,
      happened [failed_to_get NoVideoSource] (entered (Sample.world Sample.audio_only)))).
Proof.
  apply (before_llm_cb_without_video tt initial_ctx (Sample.world Sample.audio_only)).
  reflexivity.
Defined.


Lemma entrypoint_raises_iff_witness :
  (entrypoint Sample2.cold_job (Sample.world Sample.audio_only)).1
  = Raise missing_vad
  /\ (entrypoint Sample2.keyless_job (Sample.world Sample.audio_only)).1
     = Raise Sample2.no_api_key
  /\ (entrypoint Sample2.interrupted_job (Sample.world Sample.audio_only)).1
     = Raise Sample.cancelled.
Proof.
  split_and!.
  - apply (proj2 (proj1 (entrypoint_raises_iff Sample2.cold_job
                           (Sample.world Sample.audio_only)) missing_vad)).
    reflexivity.
  - apply (proj2 (proj1 (entrypoint_raises_iff Sample2.keyless_job
                           (Sample.world Sample.audio_only)) Sample2.no_api_key)).
    reflexivity.
  - apply (proj2 (proj1 (entrypoint_raises_iff Sample2.interrupted_job
                           (Sample.world Sample.audio_only)) Sample.cancelled)).
    reflexivity.
Defined.

Lemma entrypoint_footprint_witness :
  exists es new,
    events (entrypoint Sample2.interrupted_job (Sample.world Sample.audio_only)).2
    = events (Sample.world Sample.audio_only) ++ es
    /\ collectors (entrypoint Sample2.interrupted_job
                     (Sample.world Sample.audio_only)).2
       = collectors (Sample.world Sample.audio_only) ++ new
    /\ EvWaitForParticipant ∈ es
    /\ new = [Metrics.empty_usage].
Proof.
  destruct (entrypoint_footprint Sample2.interrupted_job
              (Sample.world Sample.audio_only))
    as (es & new & Hevents & Hcollectors & Hwait & _ & _ & _ & _ & Hstarted).
  exists es, new.
  split_and!; [exact Hevents | exact Hcollectors | apply Hwait; reflexivity |].
  apply Hstarted. exists (EvStart "demo" "alice"). split; [reflexivity|].
  vm_compute in Hevents. rewrite <- Hevents.
  apply list_elem_of_lookup. by exists 4.
Defined.

Lemma entrypoint_after_prewarm_witness :
  exists s, (entrypoint Sample.job (Sample.world Sample.audio_only)).1 = Ret s.
Proof.
  apply (proj1 (proj2 (entrypoint_after_prewarm Sample.job {| userdata := ∅ |}
                         (Sample.world Sample.audio_only) eq_refl))
           (Sample.alice (Rtc.FeedFrames []))); reflexivity.
Defined.

Lemma sessions_have_own_collectors_witness :
  exists s1 s2 w1 w2,
    entrypoint Sample.job (Sample.world Sample.audio_only) = (Ret s1, w1)
    /\ entrypoint Sample.job w1 = (Ret s2, w2)
    /\ usage_collector s1 <> usage_collector s2
    /\ collectors (deliver (agent s1) [Sample.llm_call] w2).2 !! usage_collector s2
       = collectors w2 !! usage_collector s2.
Proof.
  destruct (entrypoint Sample.job (Sample.world Sample.audio_only))
    as [[s1|e] w1] eqn:Hrun1; [|vm_compute in Hrun1; discriminate].
  destruct (entrypoint Sample.job w1) as [[s2|e] w2] eqn:Hrun2.
  2:{ rewrite entrypoint_runs in Hrun2. vm_compute in Hrun2. discriminate. }
  destruct (sessions_have_own_collectors _ _ _ _ _ _ _ Hrun1 Hrun2)
    as [Hdistinct Hdeliver].
  exists s1, s2, w1, w2.
  split_and!; [reflexivity | exact Hrun2 | exact Hdistinct |].
  apply (proj1 (Hdeliver [Sample.llm_call])).
Defined.
